(** * EvaluatorPairLJLow: the modified Lennard-Jones pair evaluator

    A shallow embedding of [EvaluatorPairLJLow.h].  The header is compiled
    against HOOMD's [HOOMDMath.h], which fixes the floating types [ShortReal]
    and [Scalar] at build time, so the embedding is generic in a [Build]:
    the floating types, their operations, the conversions C++ inserts
    between them, and libm's [pow].  Two builds are given: full precision
    (every type IEEE binary64, computed with primitive floats) and mixed
    precision ([ShortReal] binary32, [Scalar] binary64).  Operations are
    applied one by one as the source writes them; a compiler's contraction
    of [a * b - c] into a fused multiply-add is not modelled. *)

From Stdlib Require Import ZArith Bool String Ascii Lia.
From Stdlib Require Import Floats.
From stdpp Require Import base option gmap strings.

Set Implicit Arguments.

(** ** Floating types *)

(** The operations the header uses on one floating type. *)
Class FloatArith (F : Type) := {
  lit  : Z -> F;              (* an integer-valued literal, converted to F *)
  fadd : F -> F -> F;
  fsub : F -> F -> F;
  fmul : F -> F -> F;
  fdiv : F -> F -> F;
  fltb : F -> F -> bool;      (* operator<  *)
  feqb : F -> F -> bool;      (* operator== *)
}.

(** [a != b] is [!(a == b)] for every C++ arithmetic type, NaN included. *)
Definition fneb {F} `{FloatArith F} (a b : F) : bool := negb (feqb a b).

Declare Scope fl_scope.
Delimit Scope fl_scope with fl.
Infix "+" := fadd : fl_scope.
Infix "-" := fsub : fl_scope.
Infix "*" := fmul : fl_scope.
Infix "/" := fdiv : fl_scope.
Infix "<?" := fltb : fl_scope.
Infix "=?" := feqb : fl_scope.
Infix "!=?" := fneb (at level 70) : fl_scope.

(** What a build fixes: [ShortReal] and [Scalar] (typedefs of [HOOMDMath.h]),
    [double] (the type of the literals [4.0], [12.0], [1. / 6.] and of
    Python floats), the conversions C++ inserts between them, and [pow]. *)
Class Build := {
  ShortReal : Type;
  Scalar : Type;
  double : Type;
  ShortReal_ops :: FloatArith ShortReal;
  Scalar_ops :: FloatArith Scalar;
  double_ops :: FloatArith double;
  to_Scalar : ShortReal -> Scalar;      (* ShortReal used where a Scalar is expected *)
  to_double : ShortReal -> double;      (* promotion in mixed expressions *)
  to_ShortReal : double -> ShortReal;   (* narrowing on assignment and cast<ShortReal> *)
  pow : double -> double -> double;     (* <cmath> *)
}.

(** ** Exceptions *)

Inductive exception : Type :=
| runtime_error (what : string)     (* std::runtime_error *)
| key_error (key : string)          (* pybind11::error_already_set, KeyError *)
| cast_error (key : string).        (* pybind11::cast_error *)

(** A call either returns or throws. *)
Inductive result (A : Type) : Type :=
| Returns (a : A)
| Throws (e : exception).
Arguments Returns {A} a.
Arguments Throws {A} e.

(** ** Python objects held by a [pybind11::dict] *)

Inductive py_object (D : Type) : Type :=
| py_float (d : D)
| py_str (s : string)
| py_none.
Arguments py_float {D} d.
Arguments py_str {D} s.
Arguments py_none {D}.

(** ** [param_type] *)

Module param_type.
Section WithBuild.
Context {B : Build}.
Local Open Scope fl_scope.

Record t : Type := mk { lj1 : ShortReal; lj2 : ShortReal }.

(** [param_type() : lj1(0), lj2(0)] *)
Definition default : t := {| lj1 := lit 0; lj2 := lit 0 |}.

(** [param_type(ShortReal sigma, ShortReal epsilon, bool managed = false)];
    the products are formed in [double] and narrowed on assignment. *)
Definition of_sigma_epsilon (sigma epsilon : ShortReal) (managed : bool) : t :=
  {| lj1 := to_ShortReal (lit 4 * to_double epsilon * pow (to_double sigma) (lit 12));
     lj2 := to_ShortReal (lit 4 * to_double epsilon * pow (to_double sigma) (lit 6)) |}.

(** [v[key].cast<ShortReal>()] *)
Definition cast_item (v : gmap string (py_object double)) (key : string)
  : result ShortReal :=
  match v !! key with
  | None => Throws (key_error key)
  | Some (py_float d) => Returns (to_ShortReal d)
  | Some _ => Throws (cast_error key)
  end.

(** [param_type(pybind11::dict v, bool managed = false)] *)
Definition of_dict (v : gmap string (py_object double)) (managed : bool) : result t :=
  match cast_item v "sigma" with
  | Throws e => Throws e
  | Returns sigma =>
    match cast_item v "epsilon" with
    | Throws e => Throws e
    | Returns epsilon => Returns (of_sigma_epsilon sigma epsilon managed)
    end
  end.

(** [asDict()] *)
Definition asDict (p : t) : gmap string (py_object double) :=
  let sigma6 := lj1 p / lj2 p in
  let v : gmap string (py_object double) := ∅ in
  let v := <["sigma" := py_float (pow (to_double sigma6) (lit 1 / lit 6))]> v in
  let v := <["epsilon" := py_float (to_double (lj2 p / (sigma6 * lit 4)))]> v in
  v.
End WithBuild.
Arguments t : clear implicits.
End param_type.

(** ** [EvaluatorPairLJLow] *)

Module EvaluatorPairLJLow.
Section WithBuild.
Context {B : Build}.
Local Open Scope fl_scope.

(** The protected members. *)
Record t : Type := mk {
  rsq : ShortReal;
  rcutsq : ShortReal;
  lj1 : ShortReal;
  lj2 : ShortReal;
}.

(** [EvaluatorPairLJLow(_rsq, _rcutsq, _params)] *)
Definition make (_rsq _rcutsq : ShortReal) (_params : param_type.t B) : t :=
  {| rsq := _rsq; rcutsq := _rcutsq;
     lj1 := param_type.lj1 _params; lj2 := param_type.lj2 _params |}.

Definition needsDiameter : bool := false.
Definition setDiameter (di dj : Scalar) (e : t) : t := e.

Definition needsCharge : bool := false.
Definition setCharge (qi qj : Scalar) (e : t) : t := e.

(** The two reference arguments of [evalForceAndEnergy], as passed in and
    as left on return, with the returned flag. *)
Record outputs : Type := out {
  evaluated : bool;
  force_divr : Scalar;
  pair_eng : Scalar;
}.

(** [bool evalForceAndEnergy(Scalar& force_divr, Scalar& pair_eng, bool energy_shift)] *)
Definition evalForceAndEnergy (e : t) (force_divr0 pair_eng0 : Scalar)
    (energy_shift : bool) : outputs :=
  if (rsq e <? rcutsq e) && (lj1 e !=? lit 0) then
    let r2inv := lit 1 / rsq e in
    let r6inv := r2inv * r2inv * r2inv in
    let force_divr := to_Scalar (r2inv * r6inv * (lit 12 * lj1 e * r6inv - lit 6 * lj2 e)) in
    let pair_eng := to_Scalar (r6inv * (lj1 e * r6inv - lj2 e)) in
    let pair_eng :=
      if energy_shift then
        let rcut2inv := lit 1 / rcutsq e in
        let rcut6inv := rcut2inv * rcut2inv * rcut2inv in
        pair_eng - to_Scalar (rcut6inv * (lj1 e * rcut6inv - lj2 e))
      else pair_eng in
    out true force_divr pair_eng
  else
    out false force_divr0 pair_eng0.

(** The same body with every division guarded: [None] as soon as a
    divisor compares equal to zero. *)
Definition checked_div (a b : ShortReal) : option ShortReal :=
  if b =? lit 0 then None else Some (a / b).

Definition evalForceAndEnergy_checked (e : t) (force_divr0 pair_eng0 : Scalar)
    (energy_shift : bool) : option outputs :=
  if (rsq e <? rcutsq e) && (lj1 e !=? lit 0) then
    r2inv ← checked_div (lit 1) (rsq e);
    let r6inv := r2inv * r2inv * r2inv in
    let force_divr := to_Scalar (r2inv * r6inv * (lit 12 * lj1 e * r6inv - lit 6 * lj2 e)) in
    let pair_eng := to_Scalar (r6inv * (lj1 e * r6inv - lj2 e)) in
    pair_eng ←
      (if energy_shift then
         rcut2inv ← checked_div (lit 1) (rcutsq e);
         let rcut6inv := rcut2inv * rcut2inv * rcut2inv in
         Some (pair_eng - to_Scalar (rcut6inv * (lj1 e * rcut6inv - lj2 e)))
       else Some pair_eng);
    Some (out true force_divr pair_eng)
  else
    Some (out false force_divr0 pair_eng0).

Definition evalPressureLRCIntegral (e : t) : Scalar := lit 0.
Definition evalEnergyLRCIntegral (e : t) : Scalar := lit 0.

Definition getName : string := "ljlow".

(** [getShapeSpec() const]: the body is a single [throw]. *)
Definition getShapeSpec (e : t) : result string :=
  Throws (runtime_error "Shape definition not supported for this pair potential.").
End WithBuild.
Arguments t : clear implicits.
Arguments outputs : clear implicits.
End EvaluatorPairLJLow.

(** ** The full-precision build: every floating type is IEEE binary64 *)

Module Binary64.
Definition lit64 (z : Z) : float :=
  match z with
  | Zneg p => PrimFloat.opp (PrimFloat.of_uint63 (Uint63.of_Z (Zpos p)))
  | _ => PrimFloat.of_uint63 (Uint63.of_Z z)
  end.

#[export] Instance arith : FloatArith float := {|
  lit := lit64;
  fadd := PrimFloat.add;
  fsub := PrimFloat.sub;
  fmul := PrimFloat.mul;
  fdiv := PrimFloat.div;
  fltb := PrimFloat.ltb;
  feqb := PrimFloat.eqb;
|}.

(** [typedef double Scalar; typedef double ShortReal;], [pow] left open. *)
Definition build (libm_pow : float -> float -> float) : Build := {|
  ShortReal := float;
  Scalar := float;
  double := float;
  ShortReal_ops := arith;
  Scalar_ops := arith;
  double_ops := arith;
  to_Scalar := fun x => x;
  to_double := fun x => x;
  to_ShortReal := fun x => x;
  pow := libm_pow;
|}.

(** [|a - b| <= tol], false as soon as a NaN is involved. *)
Definition within (tol a b : float) : bool :=
  PrimFloat.leb (PrimFloat.abs (PrimFloat.sub a b)) tol.

(** The value of an integral finite binary64 number. *)
Definition integral_value (y : float) : option Z :=
  match Prim2SF y with
  | S754_zero _ => Some 0%Z
  | S754_finite s m e =>
      let v := if s then Zneg m else Zpos m in
      if (0 <=? e)%Z then Some (v * 2 ^ e)%Z
      else if (Zpos m mod 2 ^ (- e) =? 0)%Z then Some (v / 2 ^ (- e))%Z
      else None
  | _ => None
  end.

Fixpoint pow_nat (x : float) (n : nat) : float :=
  match n with
  | O => 1%float
  | S n' => PrimFloat.mul x (pow_nat x n')
  end.

(** A stand-in for libm's [pow], used to run the examples.  It follows C
    Annex F on the special cases ([pow(x, 0) = 1], [pow(1, y) = 1], NaN
    otherwise propagated), computes integral powers by repeated
    multiplication, and answers NaN where the base is not 1 and the
    exponent is not integral.  The theorems below do not depend on it:
    they are stated for every [pow] with the property they use. *)
Definition pow_standin (x y : float) : float :=
  if PrimFloat.eqb y 0 then 1%float
  else if PrimFloat.eqb x 1 then 1%float
  else if PrimFloat.is_nan x || PrimFloat.is_nan y then PrimFloat.nan
  else match integral_value y with
       | Some (Zpos p) => pow_nat x (Pos.to_nat p)
       | Some (Zneg p) => PrimFloat.div 1 (pow_nat x (Pos.to_nat p))
       | _ => PrimFloat.nan
       end.
End Binary64.

(** ** The mixed-precision build: [ShortReal] is IEEE binary32 *)

Module Binary32.
(** binary32 numbers are the [spec_float]s of precision 24 and exponent
    bound 128, with the round-to-nearest-even operations of [SpecFloat]. *)
Definition float32 : Type := spec_float.
Definition prec32 : Z := 24.
Definition emax32 : Z := 128.

Definition lit32 (z : Z) : float32 := binary_normalize prec32 emax32 z 0 false.

#[export] Instance arith : FloatArith float32 := {|
  lit := lit32;
  fadd := SFadd prec32 emax32;
  fsub := SFsub prec32 emax32;
  fmul := SFmul prec32 emax32;
  fdiv := SFdiv prec32 emax32;
  fltb := SFltb;
  feqb := SFeqb;
|}.

(** float to double: every binary32 number is a binary64 number. *)
Definition widen (x : float32) : float := SF2Prim x.

(** double to float: rounded to the nearest binary32 number. *)
Definition narrow (d : float) : float32 :=
  match Prim2SF d with
  | S754_finite s m e =>
      binary_normalize prec32 emax32 (if s then Zneg m else Zpos m) e s
  | x => x
  end.
End Binary32.

Module Mixed.
(** [typedef double Scalar; typedef float ShortReal;], [pow] left open. *)
Definition build (libm_pow : float -> float -> float) : Build := {|
  ShortReal := Binary32.float32;
  Scalar := float;
  double := float;
  ShortReal_ops := Binary32.arith;
  Scalar_ops := Binary64.arith;
  double_ops := Binary64.arith;
  to_Scalar := Binary32.widen;
  to_double := Binary32.widen;
  to_ShortReal := Binary32.narrow;
  pow := libm_pow;
|}.
End Mixed.

(** ** Predicates the statements use *)

Definition to_lower (c : ascii) : ascii :=
  let n := nat_of_ascii c in
  if (65 <=? n)%nat && (n <=? 90)%nat then ascii_of_nat (n + 32) else c.

Fixpoint lower (s : string) : string :=
  match s with
  | EmptyString => EmptyString
  | String c s' => String (to_lower c) (lower s')
  end.

Fixpoint occurs_at (sub s : string) (fuel : nat) : bool :=
  if String.prefix sub s then true
  else match fuel, s with
       | S fuel', String _ s' => occurs_at sub s' fuel'
       | _, _ => false
       end.

(** [mentions word msg]: [word] occurs in [msg], letter case ignored. *)
Definition mentions (word msg : string) : bool :=
  occurs_at (lower word) (lower msg) (String.length msg).

(** The [what()] of the [std::runtime_error] a call fails with. *)
Definition failure_message {A} (r : result A) : option string :=
  match r with
  | Throws (runtime_error what) => Some what
  | _ => None
  end.

(** Construct from [(sigma, epsilon)], export with [asDict], and compare the
    exported entries with the originals up to [tol] (binary64 build). *)
Definition roundtrip_within (libm_pow : float -> float -> float)
    (tol sigma epsilon : float) : bool :=
  let B := Binary64.build libm_pow in
  let v := param_type.asDict (param_type.of_sigma_epsilon (B := B) sigma epsilon false) in
  match v !! "sigma", v !! "epsilon" with
  | Some (py_float s), Some (py_float e) =>
      Binary64.within tol s sigma && Binary64.within tol e epsilon
  | _, _ => false
  end.

(** * Properties *)

(** ** Properties that hold in every build *)

Section EveryBuild.
Context {B : Build}.
Import EvaluatorPairLJLow.
Local Open Scope fl_scope.

Implicit Types (e : EvaluatorPairLJLow.t B) (fd pe : Scalar) (shift : bool).

(** The test of the [if] in [evalForceAndEnergy]. *)
Lemma evaluated_eq e fd pe shift :
  evaluated (evalForceAndEnergy e fd pe shift)
  = (rsq e <? rcutsq e) && (lj1 e !=? lit 0).
Proof.
  unfold evalForceAndEnergy.
  destruct ((rsq e <? rcutsq e) && (lj1 e !=? lit 0)); reflexivity.
Qed.

Lemma not_evaluated_untouched e fd pe shift :
  evaluated (evalForceAndEnergy e fd pe shift) = false ->
  evalForceAndEnergy e fd pe shift = out false fd pe.
Proof.
  unfold evalForceAndEnergy.
  destruct ((rsq e <? rcutsq e) && (lj1 e !=? lit 0)); [discriminate | reflexivity].
Qed.

(** C1. [evalForceAndEnergy] is a total function (it has no failing
    outcome), it returns true exactly when [rsq < rcutsq] and [lj1 != 0],
    and when it returns false it has written neither output: both hold
    whatever the caller passed in, which carries no information about the
    pair. *)
Theorem evalForceAndEnergy_true_iff e fd pe shift :
  (evaluated (evalForceAndEnergy e fd pe shift) = true
     <-> (rsq e <? rcutsq e) = true /\ (lj1 e !=? lit 0) = true)
  /\ (evaluated (evalForceAndEnergy e fd pe shift) = false ->
      force_divr (evalForceAndEnergy e fd pe shift) = fd
      /\ pair_eng (evalForceAndEnergy e fd pe shift) = pe).
Proof.
  split.
  - rewrite evaluated_eq. apply andb_true_iff.
  - intros Hf. rewrite (not_evaluated_untouched _ _ _ _ Hf). split; reflexivity.
Qed.

(** C2. On a valid input with [energy_shift] false the call returns true
    with [force_divr = r2inv * r6inv * (12 * lj1 * r6inv - 6 * lj2)] and
    [pair_eng = r6inv * (lj1 * r6inv - lj2)], where [r2inv = 1 / rsq] and
    [r6inv = r2inv * r2inv * r2inv]. *)
Theorem evalForceAndEnergy_unshifted e fd pe :
  (rsq e <? rcutsq e) = true -> (lj1 e !=? lit 0) = true ->
  let r2inv := lit 1 / rsq e in
  let r6inv := r2inv * r2inv * r2inv in
  evalForceAndEnergy e fd pe false
  = out true
      (to_Scalar (r2inv * r6inv * (lit 12 * lj1 e * r6inv - lit 6 * lj2 e)))
      (to_Scalar (r6inv * (lj1 e * r6inv - lj2 e))).
Proof.
  intros Hlt Hne. unfold evalForceAndEnergy. rewrite Hlt, Hne. reflexivity.
Qed.

(** C3. On a valid input the call with [energy_shift] true returns the
    energy of the unshifted call minus [rcut6inv * (lj1 * rcut6inv - lj2)],
    the same formula at [rcutsq], and the same force. *)
Theorem energy_shift_changes_energy_only e fd pe :
  (rsq e <? rcutsq e) = true -> (lj1 e !=? lit 0) = true ->
  let shifted := evalForceAndEnergy e fd pe true in
  let plain := evalForceAndEnergy e fd pe false in
  let rcut2inv := lit 1 / rcutsq e in
  let rcut6inv := rcut2inv * rcut2inv * rcut2inv in
  pair_eng shifted = pair_eng plain - to_Scalar (rcut6inv * (lj1 e * rcut6inv - lj2 e))
  /\ force_divr shifted = force_divr plain
  /\ evaluated shifted = true /\ evaluated plain = true.
Proof.
  intros Hlt Hne. unfold evalForceAndEnergy. rewrite Hlt, Hne. cbn.
  repeat split.
Qed.

(** The force never depends on the flag, valid input or not. *)
Lemma force_divr_shift_irrelevant e fd pe :
  force_divr (evalForceAndEnergy e fd pe true)
  = force_divr (evalForceAndEnergy e fd pe false).
Proof.
  unfold evalForceAndEnergy.
  destruct ((rsq e <? rcutsq e) && (lj1 e !=? lit 0)); reflexivity.
Qed.

(** C9. [needsDiameter] and [needsCharge] are false, and [setDiameter] and
    [setCharge] leave every member as it was, so evaluation after either
    (or both) gives what it gives without them. *)
Theorem setters_are_noops e (di dj qi qj : Scalar) fd pe shift :
  needsDiameter = false /\ needsCharge = false
  /\ setDiameter di dj e = e /\ setCharge qi qj e = e
  /\ (rsq (setDiameter di dj e), rcutsq (setDiameter di dj e),
      lj1 (setDiameter di dj e), lj2 (setDiameter di dj e))
     = (rsq e, rcutsq e, lj1 e, lj2 e)
  /\ (rsq (setCharge qi qj e), rcutsq (setCharge qi qj e),
      lj1 (setCharge qi qj e), lj2 (setCharge qi qj e))
     = (rsq e, rcutsq e, lj1 e, lj2 e)
  /\ evalForceAndEnergy (setDiameter di dj e) fd pe shift
     = evalForceAndEnergy e fd pe shift
  /\ evalForceAndEnergy (setCharge qi qj e) fd pe shift
     = evalForceAndEnergy e fd pe shift
  /\ evalForceAndEnergy (setCharge qi qj (setDiameter di dj e)) fd pe shift
     = evalForceAndEnergy e fd pe shift.
Proof. repeat split. Qed.

(** A guarded run that succeeds is the unguarded run. *)
Lemma checked_refines e fd pe shift o :
  evalForceAndEnergy_checked e fd pe shift = Some o ->
  o = evalForceAndEnergy e fd pe shift.
Proof.
  unfold evalForceAndEnergy_checked, evalForceAndEnergy, checked_div.
  destruct ((rsq e <? rcutsq e) && (lj1 e !=? lit 0)).
  - destruct (rsq e =? lit 0); cbn; [discriminate |].
    destruct shift; cbn.
    + destruct (rcutsq e =? lit 0); cbn; [discriminate |].
      intros [= <-]. reflexivity.
    + intros [= <-]. reflexivity.
  - intros [= <-]. reflexivity.
Qed.

(** *** Laws of the comparison operators

    The next results use a few laws of [<] and [==] on [ShortReal]; they
    hold in IEEE formats (proved for binary64 and binary32 further down). *)
Section Comparisons.
Hypothesis zero_eq_zero : ((lit 0 : ShortReal) =? lit 0) = true.
Hypothesis lt_irrefl : forall a : ShortReal, (a <? a) = false.
Hypothesis pos_nonzero : forall a : ShortReal, (lit 0 <? a) = true -> (a =? lit 0) = false.
Hypothesis pos_lt_pos :
  forall a b : ShortReal, (lit 0 <? a) = true -> (a <? b) = true -> (lit 0 <? b) = true.

(** C10. Default parameters are [lj1 = 0], [lj2 = 0], and an evaluator
    built from them returns false whatever [rsq], [rcutsq] and the flag
    are (and so leaves both outputs alone). *)
Theorem default_params_never_evaluate (_rsq _rcutsq : ShortReal) fd pe shift :
  param_type.lj1 param_type.default = lit 0
  /\ param_type.lj2 param_type.default = lit 0
  /\ evalForceAndEnergy (make _rsq _rcutsq param_type.default) fd pe shift
     = out false fd pe.
Proof using zero_eq_zero.
  repeat split. unfold evalForceAndEnergy, fneb. cbn.
  rewrite zero_eq_zero, andb_false_r. reflexivity.
Qed.

(** C5. When [rsq > 0] no division of [evalForceAndEnergy] has a zero
    divisor: the guarded run never takes its error branch and returns
    what the unguarded run returns. *)
Theorem divisions_have_nonzero_divisors e fd pe shift :
  (lit 0 <? rsq e) = true ->
  evalForceAndEnergy_checked e fd pe shift
  = Some (evalForceAndEnergy e fd pe shift).
Proof using pos_nonzero pos_lt_pos.
  intros Hpos.
  unfold evalForceAndEnergy_checked, evalForceAndEnergy, checked_div.
  destruct (rsq e <? rcutsq e) eqn:Hlt; cbn [andb]; [| reflexivity].
  destruct (lj1 e !=? lit 0); [| reflexivity].
  rewrite (pos_nonzero _ Hpos). cbn.
  destruct shift; cbn; [| reflexivity].
  rewrite (pos_nonzero _ (pos_lt_pos _ _ Hpos Hlt)). reflexivity.
Qed.

End Comparisons.
End EveryBuild.

(** ** The comparison laws in IEEE formats *)

(** On [spec_float], whatever the precision. *)
Module SpecFloatLaws.

Lemma SF_pos_nonzero (a : spec_float) :
  SFltb (S754_zero false) a = true -> SFeqb a (S754_zero false) = false.
Proof.
  destruct a as [s|s| |s m e]; cbn; try discriminate; try reflexivity.
  all: destruct s; cbn; try discriminate; reflexivity.
Qed.

Lemma SF_pos_lt_pos (a b : spec_float) :
  SFltb (S754_zero false) a = true -> SFltb a b = true ->
  SFltb (S754_zero false) b = true.
Proof.
  destruct a as [s|s| |s m e]; cbn; try discriminate;
    destruct s; cbn; try discriminate;
    destruct b as [s'|s'| |s' m' e']; cbn; try discriminate;
    try destruct s'; cbn; try discriminate; reflexivity.
Qed.
End SpecFloatLaws.

(** On primitive floats, through their specification. *)
Module Binary64Laws.
Import Binary64 SpecFloatLaws.


Lemma pos_nonzero (a : float) :
  PrimFloat.ltb 0 a = true -> PrimFloat.eqb a 0 = false.
Proof.
  rewrite FloatAxioms.ltb_spec, FloatAxioms.eqb_spec. apply SF_pos_nonzero.
Qed.

Lemma pos_lt_pos (a b : float) :
  PrimFloat.ltb 0 a = true -> PrimFloat.ltb a b = true -> PrimFloat.ltb 0 b = true.
Proof. rewrite !FloatAxioms.ltb_spec. apply SF_pos_lt_pos. Qed.

(** No tolerance accepts a NaN. *)
Lemma within_nan (tol b : float) : within tol PrimFloat.nan b = false.
Proof.
  unfold within.
  rewrite FloatAxioms.leb_spec, FloatAxioms.abs_spec, FloatAxioms.sub_spec.
  change (Prim2SF PrimFloat.nan) with S754_nan. reflexivity.
Qed.
End Binary64Laws.

(** ** Zeros, finite numbers and NaN in binary64 *)

Module Binary64Facts.
Lemma SFeqb_refl_not_nan (s : spec_float) : s <> S754_nan -> SFeqb s s = true.
Proof.
  unfold SFeqb. destruct s as [b|b| |b m e]; cbn; intros H; try reflexivity.
  - destruct b; reflexivity.
  - contradiction.
  - destruct b; rewrite Z.compare_refl, Pos.compare_cont_refl; reflexivity.
Qed.

Lemma is_nan_spec (x : float) : PrimFloat.is_nan x = true -> Prim2SF x = S754_nan.
Proof.
  unfold PrimFloat.is_nan. rewrite FloatAxioms.eqb_spec. intros H.
  destruct (Prim2SF x) as [b|b| |b m e] eqn:Hx; [| |reflexivity|].
  all: rewrite SFeqb_refl_not_nan in H by discriminate; discriminate.
Qed.

Lemma is_zero_spec (x : float) :
  PrimFloat.is_zero x = true -> exists b, Prim2SF x = S754_zero b.
Proof.
  unfold PrimFloat.is_zero. rewrite FloatAxioms.eqb_spec.
  change (Prim2SF PrimFloat.zero) with (S754_zero false).
  destruct (Prim2SF x) as [b|b| |b m e]; cbn; try discriminate; eauto.
  all: destruct b; discriminate.
Qed.

Lemma is_finite_spec (x : float) :
  PrimFloat.is_finite x = true ->
  (exists b, Prim2SF x = S754_zero b) \/ (exists b m e, Prim2SF x = S754_finite b m e).
Proof.
  unfold PrimFloat.is_finite, PrimFloat.is_nan, PrimFloat.is_infinity.
  rewrite !FloatAxioms.eqb_spec, FloatAxioms.abs_spec.
  change (Prim2SF PrimFloat.infinity) with (S754_infinity false).
  destruct (Prim2SF x) as [b|b| |b m e]; cbn; eauto 6.
  - rewrite orb_true_r. discriminate.
  - discriminate.
Qed.

(** A zero times a finite number is a zero, whatever the signs. *)
Lemma mul_zero_finite (a b : float) :
  PrimFloat.is_zero a = true -> PrimFloat.is_finite b = true ->
  PrimFloat.is_zero (PrimFloat.mul a b) = true
  /\ PrimFloat.is_zero (PrimFloat.mul b a) = true.
Proof.
  intros Ha Hb. apply is_zero_spec in Ha as [sa Ha].
  unfold PrimFloat.is_zero. rewrite !FloatAxioms.eqb_spec, !FloatAxioms.mul_spec, Ha.
  change (Prim2SF PrimFloat.zero) with (S754_zero false).
  apply is_finite_spec in Hb as [[sb ->] | (sb & m & e & ->)]; cbn;
    destruct (xorb sa sb), (xorb sb sa); split; reflexivity.
Qed.

Lemma is_zero_finite (a : float) :
  PrimFloat.is_zero a = true -> PrimFloat.is_finite a = true.
Proof.
  intros Ha. apply is_zero_spec in Ha as [sa Ha].
  unfold PrimFloat.is_finite, PrimFloat.is_nan, PrimFloat.is_infinity.
  rewrite !FloatAxioms.eqb_spec, FloatAxioms.abs_spec, Ha. reflexivity.
Qed.
End Binary64Facts.

(** ** Operations of binary64 that do not round *)


Module Binary64Exact.
Import Binary64Facts.
Local Open Scope Z_scope.









End Binary64Exact.

(** ** The concrete scenarios *)

Section Scenarios.
Import EvaluatorPairLJLow Binary32.
Variable libm_pow : float -> float -> float.

(** C Annex F: [pow(+1, y)] returns 1 for any [y], even a NaN. *)
Hypothesis pow_one : forall y : float, libm_pow 1 y = 1%float.

Local Abbreviation B64 := (Binary64.build libm_pow).
Local Abbreviation Bmix := (Mixed.build libm_pow).

Lemma params_1_1_binary64 (managed : bool) :
  param_type.of_sigma_epsilon (B := B64) 1%float 1%float managed
  = param_type.mk (B := B64) 4%float 4%float.
Proof using pow_one.
  unfold param_type.of_sigma_epsilon. cbn. rewrite !pow_one. reflexivity.
Qed.

Lemma params_1_1_mixed (managed : bool) :
  param_type.of_sigma_epsilon (B := Bmix) (lit32 1) (lit32 1) managed
  = param_type.mk (B := Bmix) (lit32 4) (lit32 4).
Proof using pow_one.
  unfold param_type.of_sigma_epsilon. cbn.
  change (widen (lit32 1)) with 1%float. rewrite !pow_one. reflexivity.
Qed.

(** C6. With [sigma = 1.0] and [epsilon = 1.0] the parameters are
    [lj1 = 4.0], [lj2 = 4.0]; at [rsq = 1.0], [rcutsq = 9.0] without energy
    shift the call returns true with [force_divr = 24] and [pair_eng = 0]
    exactly; at [rsq = 10.0] it returns false.  Both in the full-precision
    and in the mixed-precision build. *)
Theorem scenario_sigma_1_epsilon_1 (managed : bool) (fd pe : float) :
  (let p := param_type.of_sigma_epsilon (B := B64)
              1%float 1%float managed in
   p = param_type.mk (B := B64) 4%float 4%float
   /\ evalForceAndEnergy (make (B := B64) 1%float 9%float p) fd pe false
      = out (B := B64) true 24%float 0%float
   /\ (forall shift,
         evaluated (evalForceAndEnergy (make (B := B64) 10%float 9%float p) fd pe shift)
         = false))
  /\
  (let p := param_type.of_sigma_epsilon (B := Bmix)
              (lit32 1) (lit32 1) managed in
   p = param_type.mk (B := Bmix) (lit32 4) (lit32 4)
   /\ evalForceAndEnergy (make (B := Bmix) (lit32 1) (lit32 9) p) fd pe false
      = out (B := Bmix) true 24%float 0%float
   /\ (forall shift,
         evaluated (evalForceAndEnergy (make (B := Bmix) (lit32 10) (lit32 9) p) fd pe shift)
         = false)).
Proof using pow_one.
  cbv zeta. rewrite params_1_1_binary64, params_1_1_mixed.
  repeat split; intros; reflexivity.
Qed.
End Scenarios.

(** ** [getShapeSpec] *)

Section ShapeSpec.
Context {B : Build}.
Import EvaluatorPairLJLow.

(** C8, as amended.  [getShapeSpec] throws for every evaluator, so it never
    returns a string; the [runtime_error] it throws carries the fixed message
    below, which names the capability (a shape definition) and not the
    potential: neither [getName ()] nor the letters LJ occur in it. *)
Theorem getShapeSpec_always_throws (e : EvaluatorPairLJLow.t B) :
  let msg := "Shape definition not supported for this pair potential."%string in
  getShapeSpec e = Throws (runtime_error msg)
  /\ (forall s, getShapeSpec e <> Returns s)
  /\ mentions "shape definition" msg = true
  /\ mentions getName msg = false
  /\ mentions "lj" msg = false.
Proof.
  cbv zeta. repeat split; try reflexivity. intros s. discriminate.
Qed.
End ShapeSpec.

(** C8, as stated, fails: the message of the error thrown for the evaluator
    with [rsq = 1], [rcutsq = 9], [lj1 = lj2 = 4] (binary64) does not mention
    the potential's name. *)
Lemma getShapeSpec_message_omits_variant :
  option_map (mentions EvaluatorPairLJLow.getName)
    (failure_message
       (EvaluatorPairLJLow.getShapeSpec
          (EvaluatorPairLJLow.mk (B := Binary64.build Binary64.pow_standin)
             1%float 9%float 4%float 4%float)))
  = Some false.
Proof. reflexivity. Qed.

(** ** Energy at the cutoff *)

Section AtCutoff.
Import EvaluatorPairLJLow Binary32.

End AtCutoff.

(** ** Round trip through [asDict] *)

Section RoundTrip.
Import param_type Binary32.


(** A missing entry is an error raised by the constructor. *)
Lemma of_dict_missing_epsilon {B : Build} (s : double) (managed : bool) :
  of_dict (<["sigma" := py_float s]> ∅) managed = Throws (key_error "epsilon").
Proof. reflexivity. Qed.

Variable libm_pow : float -> float -> float.
Hypothesis pow_one : forall y : float, libm_pow 1 y = 1%float.

Lemma binary64_roundtrip_1_1 (managed : bool) :
  asDict (of_sigma_epsilon (B := Binary64.build libm_pow) 1%float 1%float managed)
  = <["epsilon" := py_float 1%float]> (<["sigma" := py_float 1%float]> ∅).
Proof using pow_one.
  rewrite (@params_1_1_binary64 libm_pow pow_one). unfold asDict. cbn.
  rewrite pow_one. reflexivity.
Qed.

End RoundTrip.

Section RoundTripClaim.
Import param_type Binary32.


End RoundTripClaim.

(** The stand-in has the one property of [pow] the scenarios use. *)
Lemma pow_standin_one (y : float) : Binary64.pow_standin 1 y = 1%float.
Proof.
  unfold Binary64.pow_standin. destruct (PrimFloat.eqb y 0); reflexivity.
Qed.

(** With [epsilon = 0] both coefficients are 0 and the export divides 0 by 0:
    whatever [pow] returns, no tolerance accepts the exported [epsilon]. *)
Lemma roundtrip_epsilon_zero (libm_pow : float -> float -> float) (tol : float) :
  (forall y : float, libm_pow 1%float y = 1%float) ->
  roundtrip_within libm_pow tol 1%float 0%float = false.
Proof.
  intros Hpow. unfold roundtrip_within, param_type.asDict, param_type.of_sigma_epsilon.
  cbn -[Binary64.within]. rewrite !Hpow. cbn -[Binary64.within].
  rewrite lookup_insert_ne by discriminate.
  rewrite !lookup_insert_eq.
  rewrite Binary64Laws.within_nan. apply andb_false_r.
Qed.


(** A negative [sigma] loses its sign: from [(-1.0, 1.0)] the export
    gives [sigma = 1.0]. *)
Example roundtrip_negative_sigma :
  param_type.asDict
    (param_type.of_sigma_epsilon (B := Binary64.build Binary64.pow_standin)
       (-1)%float 1%float false)
  = <["epsilon" := py_float 1%float]> (<["sigma" := py_float 1%float]> ∅).
Proof. reflexivity. Qed.

(** A small positive [sigma] underflows [lj1] to 0: from [(2^-100, 1.0)] the
    export gives [epsilon = +infinity], though [sigma > 0] and
    [epsilon <> 0]. *)
Example roundtrip_small_sigma :
  param_type.asDict
    (param_type.of_sigma_epsilon (B := Binary64.build Binary64.pow_standin)
       0x1p-100%float 1%float false) !! "epsilon"
  = Some (py_float PrimFloat.infinity).
Proof. reflexivity. Qed.

(** Without the precondition of C5 a guarded run can fail: [rsq = 0]. *)
Example checked_fails_at_rsq_zero :
  EvaluatorPairLJLow.evalForceAndEnergy_checked
    (EvaluatorPairLJLow.mk (B := Binary64.build Binary64.pow_standin)
       0%float 9%float 4%float 4%float) 0%float 0%float false
  = None.
Proof. reflexivity. Qed.

(** ** The hypotheses are satisfiable *)

Section Witnesses.
Import EvaluatorPairLJLow Binary32.
Local Abbreviation B64 := (Binary64.build Binary64.pow_standin).
Local Abbreviation Bmix := (Mixed.build Binary64.pow_standin).

(** C2 at [rsq = 1], [rcutsq = 9], [lj1 = lj2 = 4] in binary64. *)
Lemma evalForceAndEnergy_unshifted_witness :
  evalForceAndEnergy (mk (B := B64) 1%float 9%float 4%float 4%float) 0%float 0%float false
  = out (B := B64) true 24%float 0%float.
Proof.
  exact (evalForceAndEnergy_unshifted
           (mk (B := B64) 1%float 9%float 4%float 4%float) 0%float 0%float
           eq_refl eq_refl).
Defined.

(** C3 at [rsq = 4], [rcutsq = 9], [lj1 = lj2 = 4] in the mixed build. *)
Lemma energy_shift_changes_energy_only_witness :
  let e := mk (B := Bmix) (lit32 4) (lit32 9) (lit32 4) (lit32 4) in
  let shifted := evalForceAndEnergy e 0%float 0%float true in
  let plain := evalForceAndEnergy e 0%float 0%float false in
  let rcut6inv := (lit 1 / rcutsq e * (lit 1 / rcutsq e) * (lit 1 / rcutsq e))%fl in
  pair_eng shifted
  = (pair_eng plain - to_Scalar (rcut6inv * (lj1 e * rcut6inv - lj2 e)))%fl
  /\ force_divr shifted = force_divr plain
  /\ evaluated shifted = true /\ evaluated plain = true.
Proof.
  exact (energy_shift_changes_energy_only
           (mk (B := Bmix) (lit32 4) (lit32 9) (lit32 4) (lit32 4)) 0%float 0%float
           eq_refl eq_refl).
Defined.


(** C5 at [rsq = 1], [rcutsq = 9] with energy shift, in binary64. *)
Lemma divisions_have_nonzero_divisors_witness :
  evalForceAndEnergy_checked (mk (B := B64) 1%float 9%float 4%float 4%float)
    0%float 0%float true
  = Some (evalForceAndEnergy (mk (B := B64) 1%float 9%float 4%float 4%float)
            0%float 0%float true).
Proof.
  exact (divisions_have_nonzero_divisors (B := B64)
           Binary64Laws.pos_nonzero Binary64Laws.pos_lt_pos
           (mk (B := B64) 1%float 9%float 4%float 4%float) 0%float 0%float true
           eq_refl).
Defined.

(** C6 with the stand-in for [pow]. *)
Lemma scenario_sigma_1_epsilon_1_witness :
  param_type.of_sigma_epsilon (B := B64) 1%float 1%float false
  = param_type.mk (B := B64) 4%float 4%float
  /\ param_type.of_sigma_epsilon (B := Bmix) (lit32 1) (lit32 1) false
     = param_type.mk (B := Bmix) (lit32 4) (lit32 4).
Proof.
  pose proof (@scenario_sigma_1_epsilon_1 _ pow_standin_one false 0%float 0%float) as H.
  exact (conj (proj1 (proj1 H)) (proj1 (proj2 H))).
Defined.


(** C10 in binary64. *)
Lemma default_params_never_evaluate_witness :
  evalForceAndEnergy (make (B := B64) 1%float 9%float param_type.default)
    0%float 0%float true
  = out (B := B64) false 0%float 0%float.
Proof.
  exact (proj2 (proj2 (default_params_never_evaluate (B := B64) eq_refl
                         1%float 9%float 0%float 0%float true))).
Defined.
End Witnesses.

(** * Further properties *)

(** ** The dict constructor *)

(** A Python object the float caster accepts. *)
Definition is_py_float {D} (o : py_object D) : bool :=
  match o with
  | py_float _ => true
  | _ => false
  end.

Section DictConstructor.
Context {B : Build}.
Import param_type.

Implicit Types (v : gmap string (py_object double)) (managed : bool).

Lemma cast_item_returns v key x :
  cast_item v key = Returns x <->
  exists d, v !! key = Some (py_float d) /\ x = to_ShortReal d.
Proof.
  unfold cast_item. destruct (v !! key) as [[d| |]|]; split.
  all: try (intros [= <-]; eauto).
  all: try discriminate.
  all: try (intros (d' & [= <-] & ->); reflexivity).
  all: intros (d' & Hd & _); discriminate.
Qed.

Lemma cast_item_throws v key ex :
  cast_item v key = Throws ex <->
  (v !! key = None /\ ex = key_error key)
  \/ (exists o, v !! key = Some o /\ is_py_float o = false /\ ex = cast_error key).
Proof.
  unfold cast_item. destruct (v !! key) as [[d| |]|]; split.
  all: try discriminate.
  all: try (intros [= <-]; eauto 6).
  all: intros [[Hn ->] | (o & [= <-] & Hf & ->)]; try discriminate; reflexivity.
Qed.

(** X1. The dict constructor returns exactly when both ["sigma"] and
    ["epsilon"] hold Python floats, and then it builds what the
    two-argument constructor builds from the narrowed values. *)
Theorem of_dict_returns_iff v managed (p : param_type.t B) :
  of_dict v managed = Returns p <->
  exists s e, v !! "sigma" = Some (py_float s)
           /\ v !! "epsilon" = Some (py_float e)
           /\ p = of_sigma_epsilon (to_ShortReal s) (to_ShortReal e) managed.
Proof.
  unfold of_dict. split.
  - destruct (cast_item v "sigma") as [sg|ex] eqn:Hs; [| discriminate].
    destruct (cast_item v "epsilon") as [ep|ex] eqn:He; [| discriminate].
    intros [= <-].
    apply cast_item_returns in Hs as (s & Hs & ->).
    apply cast_item_returns in He as (e & He & ->).
    exists s, e. auto.
  - intros (s & e & Hs & He & ->).
    rewrite (proj2 (cast_item_returns v "sigma" _) (ex_intro _ s (conj Hs eq_refl))).
    rewrite (proj2 (cast_item_returns v "epsilon" _) (ex_intro _ e (conj He eq_refl))).
    reflexivity.
Qed.

(** X2. The dict constructor throws exactly in four cases, ["sigma"] being
    examined before ["epsilon"]: ["sigma"] missing, ["sigma"] not a float,
    or ["sigma"] a float and ["epsilon"] missing or not a float.  The
    exception names the entry at fault. *)
Theorem of_dict_throws_iff v managed (ex : exception) :
  of_dict v managed = Throws ex <->
  (v !! "sigma" = None /\ ex = key_error "sigma")
  \/ (exists o, v !! "sigma" = Some o /\ is_py_float o = false
             /\ ex = cast_error "sigma")
  \/ (exists s, v !! "sigma" = Some (py_float s)
             /\ v !! "epsilon" = None /\ ex = key_error "epsilon")
  \/ (exists s o, v !! "sigma" = Some (py_float s)
               /\ v !! "epsilon" = Some o /\ is_py_float o = false
               /\ ex = cast_error "epsilon").
Proof.
  unfold of_dict. split.
  - destruct (cast_item v "sigma") as [sg|ex'] eqn:Hs.
    + apply cast_item_returns in Hs as (s & Hs & ->).
      destruct (cast_item v "epsilon") as [ep|ex'] eqn:He; [discriminate |].
      intros [= <-]. apply cast_item_throws in He as [[He ->] | (o & He & Hf & ->)].
      * right; right; left. eauto.
      * right; right; right. eauto 6.
    + intros [= <-]. apply cast_item_throws in Hs as [[Hs ->] | (o & Hs & Hf & ->)].
      * left. auto.
      * right; left. eauto.
  - intros [[Hs ->] | [(o & Hs & Hf & ->) | [(s & Hs & He & ->) | (s & o & Hs & He & Hf & ->)]]].
    + rewrite (proj2 (cast_item_throws v "sigma" _) (or_introl (conj Hs eq_refl))).
      reflexivity.
    + rewrite (proj2 (cast_item_throws v "sigma" (cast_error "sigma"))
                 (or_intror (ex_intro _ o (conj Hs (conj Hf eq_refl))))).
      reflexivity.
    + rewrite (proj2 (cast_item_returns v "sigma" _) (ex_intro _ s (conj Hs eq_refl))).
      rewrite (proj2 (cast_item_throws v "epsilon" _) (or_introl (conj He eq_refl))).
      reflexivity.
    + rewrite (proj2 (cast_item_returns v "sigma" _) (ex_intro _ s (conj Hs eq_refl))).
      rewrite (proj2 (cast_item_throws v "epsilon" (cast_error "epsilon"))
                 (or_intror (ex_intro _ o (conj He (conj Hf eq_refl))))).
      reflexivity.
Qed.

(** X3. Entries under other keys, and the [managed] flag, have no effect on
    what the dict constructor builds or throws. *)
Theorem of_dict_ignores_other_entries v managed managed' (key : string)
    (o : py_object double) :
  key <> "sigma"%string -> key <> "epsilon"%string ->
  of_dict (<[key := o]> v) managed = of_dict v managed'
  /\ of_dict (delete key v) managed = of_dict v managed'.
Proof.
  intros Hs He. unfold of_dict, cast_item.
  rewrite !lookup_insert_ne, !lookup_delete_ne by congruence.
  split; reflexivity.
Qed.

(** X4. Whatever the parameters, [asDict] returns a dict with exactly the
    entries ["sigma"] and ["epsilon"], both Python floats, so the dict
    constructor accepts it: on an exported dict it never throws. *)
Theorem asDict_is_accepted (p : param_type.t B) managed :
  dom (asDict p) = {["sigma"%string; "epsilon"%string]}
  /\ exists s e,
       asDict p !! "sigma" = Some (py_float s)
       /\ asDict p !! "epsilon" = Some (py_float e)
       /\ of_dict (asDict p) managed
          = Returns (of_sigma_epsilon (to_ShortReal s) (to_ShortReal e) managed).
Proof.
  split.
  - unfold asDict. cbv zeta. rewrite !dom_insert_L, dom_empty_L. set_solver.
  - eexists _, _. split; [| split].
    + unfold asDict. cbv zeta. rewrite lookup_insert_ne by discriminate.
      apply lookup_insert_eq.
    + unfold asDict. cbv zeta. apply lookup_insert_eq.
    + reflexivity.
Qed.
End DictConstructor.

(** ** Edge cases of IEEE arithmetic *)


Section FloatingEdgeCases.
Import EvaluatorPairLJLow Binary32 Binary64Facts.
Variable libm_pow : float -> float -> float.

Local Abbreviation B64 := (Binary64.build libm_pow).
Local Abbreviation Bmix := (Mixed.build libm_pow).

(** X10. A NaN squared distance or a NaN squared cutoff is never evaluated:
    the call returns false and leaves both outputs, in the full-precision
    and in the mixed-precision build. *)
Theorem nan_distance_not_evaluated
    (e : EvaluatorPairLJLow.t B64) (e' : EvaluatorPairLJLow.t Bmix)
    (fd pe : float) (shift : bool) :
  PrimFloat.is_nan (rsq e) || PrimFloat.is_nan (rcutsq e) = true ->
  rsq e' = S754_nan \/ rcutsq e' = S754_nan ->
  evalForceAndEnergy e fd pe shift = out (B := B64) false fd pe
  /\ evalForceAndEnergy e' fd pe shift = out (B := Bmix) false fd pe.
Proof.
  intros H H'. split.
  - unfold evalForceAndEnergy.
    replace (fltb (rsq e) (rcutsq e)) with false; [reflexivity |].
    symmetry. cbn. rewrite FloatAxioms.ltb_spec.
    apply orb_true_iff in H as [H | H]; apply is_nan_spec in H; rewrite H.
    + reflexivity.
    + unfold SFltb. destruct (Prim2SF (rsq e)); reflexivity.
  - unfold evalForceAndEnergy.
    replace (fltb (rsq e') (rcutsq e')) with false; [reflexivity |].
    symmetry. cbn. destruct H' as [-> | ->].
    + reflexivity.
    + unfold SFltb. destruct (rsq e'); reflexivity.
Qed.

Lemma zero_product_binary64 (sigma epsilon : float) :
  (PrimFloat.is_zero epsilon && PrimFloat.is_finite (libm_pow sigma 12))
  || (PrimFloat.is_zero (libm_pow sigma 12)
      && PrimFloat.is_finite (PrimFloat.mul 4 epsilon)) = true ->
  PrimFloat.is_zero (PrimFloat.mul (PrimFloat.mul 4 epsilon) (libm_pow sigma 12)) = true.
Proof.
  intros H. apply orb_true_iff in H as [H | H]; apply andb_true_iff in H as [H1 H2].
  - pose proof (proj2 (@mul_zero_finite epsilon 4 H1 eq_refl)) as H4.
    exact (proj1 (@mul_zero_finite _ _ H4 H2)).
  - exact (proj2 (@mul_zero_finite _ _ H1 H2)).
Qed.

(** X11. In floating point, when [epsilon] is a zero and [pow(sigma, 12)] is
    finite, or [pow(sigma, 12)] is a zero and [4 * epsilon] is finite, the
    constructed [lj1] is a zero and the evaluator returns false for every
    distance, cutoff and flag, leaving both outputs (full-precision and
    mixed-precision build). *)
Theorem zero_coefficient_not_evaluated
    (sigma epsilon _rsq _rcutsq : float) (sigma' epsilon' _rsq' _rcutsq' : float32)
    (managed : bool) (fd pe : float) (shift : bool) :
  (PrimFloat.is_zero epsilon && PrimFloat.is_finite (libm_pow sigma 12))
  || (PrimFloat.is_zero (libm_pow sigma 12)
      && PrimFloat.is_finite (PrimFloat.mul 4 epsilon)) = true ->
  (PrimFloat.is_zero (widen epsilon')
   && PrimFloat.is_finite (libm_pow (widen sigma') 12))
  || (PrimFloat.is_zero (libm_pow (widen sigma') 12)
      && PrimFloat.is_finite (PrimFloat.mul 4 (widen epsilon'))) = true ->
  evalForceAndEnergy
    (make (B := B64) _rsq _rcutsq
       (param_type.of_sigma_epsilon (B := B64) sigma epsilon managed))
    fd pe shift
  = out (B := B64) false fd pe
  /\ evalForceAndEnergy
       (make (B := Bmix) _rsq' _rcutsq'
          (param_type.of_sigma_epsilon (B := Bmix) sigma' epsilon' managed))
       fd pe shift
     = out (B := Bmix) false fd pe.
Proof.
  intros H H'. apply zero_product_binary64 in H, H'. split.
  - unfold evalForceAndEnergy, make, param_type.of_sigma_epsilon, fneb.
    cbn [lj1 param_type.lj1]. cbn.
    unfold PrimFloat.is_zero, PrimFloat.zero in H. rewrite H.
    rewrite andb_false_r. reflexivity.
  - unfold evalForceAndEnergy, make, param_type.of_sigma_epsilon, fneb.
    cbn [lj1 param_type.lj1]. cbn.
    apply is_zero_spec in H' as [b Hb]. unfold narrow.
    rewrite Hb. destruct b; cbn; rewrite andb_false_r; reflexivity.
Qed.
End FloatingEdgeCases.

Section Overwritten.
Context {B : Build}.
Import EvaluatorPairLJLow.

(** X12. When the pair is evaluated the outputs are overwritten without
    being read: the result does not depend on what the caller passed in
    (the [-=] of the energy shift acts on the energy just computed). *)
Theorem evaluated_outputs_overwritten (e : EvaluatorPairLJLow.t B)
    (fd pe fd' pe' : Scalar) (shift : bool) :
  evaluated (evalForceAndEnergy e fd pe shift) = true ->
  evalForceAndEnergy e fd' pe' shift = evalForceAndEnergy e fd pe shift.
Proof.
  unfold evalForceAndEnergy.
  destruct (fltb (rsq e) (rcutsq e) && fneb (lj1 e) (lit 0));
    [reflexivity | discriminate].
Qed.
End Overwritten.

(** ** The hypotheses of the further properties are satisfiable *)

Section FurtherWitnesses.
Import EvaluatorPairLJLow Binary32.
Local Abbreviation B64 := (Binary64.build Binary64.pow_standin).
Local Abbreviation Bmix := (Mixed.build Binary64.pow_standin).

(** X3 with an entry ["delta"] beside the two the constructor reads. *)
Lemma of_dict_ignores_other_entries_witness :
  let v : gmap string (py_object float) :=
    <["epsilon" := py_float 1%float]> (<["sigma" := py_float 1%float]> ∅) in
  param_type.of_dict (B := B64) (<["delta" := py_none]> v) true
  = param_type.of_dict (B := B64) v false
  /\ param_type.of_dict (B := B64) (delete "delta" v) true
     = param_type.of_dict (B := B64) v false.
Proof.
  refine (@of_dict_ignores_other_entries B64 _ true false "delta" py_none _ _);
    discriminate.
Defined.

(** X10 with a NaN distance (binary64) and a NaN cutoff (mixed). *)
Lemma nan_distance_not_evaluated_witness :
  evalForceAndEnergy (mk (B := B64) PrimFloat.nan 9%float 4%float 4%float)
    5%float 7%float true
  = out (B := B64) false 5%float 7%float
  /\ evalForceAndEnergy (mk (B := Bmix) (lit32 1) S754_nan (lit32 4) (lit32 4))
       5%float 7%float true
     = out (B := Bmix) false 5%float 7%float.
Proof.
  exact (@nan_distance_not_evaluated Binary64.pow_standin
           (mk (B := B64) PrimFloat.nan 9%float 4%float 4%float)
           (mk (B := Bmix) (lit32 1) S754_nan (lit32 4) (lit32 4))
           5%float 7%float true eq_refl (or_intror eq_refl)).
Defined.

(** X11 at [sigma = 1], [epsilon = 0]. *)
Lemma zero_coefficient_not_evaluated_witness :
  evalForceAndEnergy
    (make (B := B64) 1%float 9%float
       (param_type.of_sigma_epsilon (B := B64) 1%float 0%float false))
    5%float 7%float true
  = out (B := B64) false 5%float 7%float
  /\ evalForceAndEnergy
       (make (B := Bmix) (lit32 1) (lit32 9)
          (param_type.of_sigma_epsilon (B := Bmix) (lit32 1) (lit32 0) false))
       5%float 7%float true
     = out (B := Bmix) false 5%float 7%float.
Proof.
  exact (@zero_coefficient_not_evaluated Binary64.pow_standin
           1%float 0%float 1%float 9%float (lit32 1) (lit32 0) (lit32 1) (lit32 9)
           false 5%float 7%float true eq_refl eq_refl).
Defined.

(** X12 at [rsq = 1], [rcutsq = 9], [lj1 = lj2 = 4] in binary64. *)
Lemma evaluated_outputs_overwritten_witness :
  evalForceAndEnergy (mk (B := B64) 1%float 9%float 4%float 4%float) 5%float 7%float true
  = evalForceAndEnergy (mk (B := B64) 1%float 9%float 4%float 4%float) 0%float 0%float true.
Proof.
  exact (@evaluated_outputs_overwritten B64
           (mk (B := B64) 1%float 9%float 4%float 4%float)
           0%float 0%float 5%float 7%float true eq_refl).
Defined.
End FurtherWitnesses.
